(** * News Research Tool: the [App] component of src/App.tsx

    A shallow embedding of the two handlers of the React component [App]
    ([processUrls] and [searchArticles]), of the state they update through the
    [useState] setters, and of the part of the render function that shows the
    answer and its sources.

    JavaScript strings are sequences of UTF-16 code units; they are modelled
    as lists of code units, so that [split], [trim] and string truthiness can
    be written the way ECMAScript defines them. *)

From Stdlib Require Import Ascii String.
From Stdlib Require Import List NArith Bool Lia.
Import ListNotations.

Local Open Scope N_scope.

(** ** JavaScript strings *)

Module JS.

(** A string is the list of its UTF-16 code units. *)
Definition jsstring := list N.

(** A string literal of the source (all of them are ASCII). *)
Definition lit (s : string) : jsstring :=
  map N_of_ascii (list_ascii_of_string s).

(** Truthiness of a string: every string but the empty one is truthy. *)
Definition truthy (s : jsstring) : bool :=
  match s with
  | [] => false
  | _ :: _ => true
  end.

(** [a || b] on strings. *)
Definition or_else (a b : jsstring) : jsstring :=
  if truthy a then a else b.

(** The code units that [String.prototype.trim] strips: ECMAScript's
    WhiteSpace (TAB, VT, FF, ZWNBSP and the space separators) and
    LineTerminator (LF, CR, LS, PS). *)
Definition isWhiteSpace (c : N) : bool :=
  (c =? 0x09) || (c =? 0x0B) || (c =? 0x0C) || (c =? 0xFEFF)
  || (c =? 0x20) || (c =? 0xA0) || (c =? 0x1680)
  || ((0x2000 <=? c) && (c <=? 0x200A))
  || (c =? 0x202F) || (c =? 0x205F) || (c =? 0x3000).

Definition isLineTerminator (c : N) : bool :=
  (c =? 0x0A) || (c =? 0x0D) || (c =? 0x2028) || (c =? 0x2029).

Definition isTrimmed (c : N) : bool := isWhiteSpace c || isLineTerminator c.

Fixpoint trimStart (s : jsstring) : jsstring :=
  match s with
  | [] => []
  | c :: t => if isTrimmed c then trimStart t else s
  end.

Definition trimEnd (s : jsstring) : jsstring := rev (trimStart (rev s)).

(** [s.trim()] *)
Definition trim (s : jsstring) : jsstring := trimEnd (trimStart s).

(** [s.split(sep)] for a separator of one code unit, the only kind the source
    uses (['\n'] and ['/']).  The result is never empty: the empty string
    splits into one empty piece. *)
Fixpoint split (sep : N) (s : jsstring) : list jsstring :=
  match s with
  | [] => [[]]
  | c :: t =>
      if c =? sep then [] :: split sep t
      else match split sep t with
           | [] => [[c]]
           | piece :: pieces => (c :: piece) :: pieces
           end
  end.

(** [arr.pop()] as an expression: the last element, [undefined] (here [None])
    on the empty array. *)
Fixpoint pop {A : Type} (arr : list A) : option A :=
  match arr with
  | [] => None
  | [x] => Some x
  | _ :: t => pop t
  end.

(** [v || fallback] where [v] is a string or [undefined]. *)
Definition or_default (v : option jsstring) (fallback : jsstring) : jsstring :=
  match v with
  | None => fallback
  | Some s => or_else s fallback
  end.

(** [arr.filter(x => x.trim())] keeps the elements whose trimmed form is
    truthy. *)
Definition nonBlank (s : jsstring) : bool := truthy (trim s).

(** String concatenation of a whole list, left to right. *)
Definition concatAll (parts : list jsstring) : jsstring := List.concat parts.

Definition LF : N := 0x0A.
Definition SLASH : N := 0x2F.

End JS.

Import JS.

(** ** The component state *)

Record Source := { url : jsstring; title : jsstring }.

(** One field per [useState] hook of [App]. *)
Record State := {
  urls : jsstring;
  query : jsstring;
  isProcessing : bool;
  isSearching : bool;
  processedData : bool;
  answer : jsstring;
  sources : list Source;
  error : option jsstring
}.

(** The initial values given to the hooks. *)
Definition initial : State :=
  {| urls := []; query := []; isProcessing := false; isSearching := false;
     processedData := false; answer := []; sources := []; error := None |}.

(** What a handler does, in program order: calls of the state setters, and
    the points where it awaits a timer.  [UpdateAnswer f] is the updater form
    [setAnswer(prev => f prev)]. *)
Inductive action :=
| Await (ms : N)
| SetIsProcessing (v : bool)
| SetIsSearching (v : bool)
| SetProcessedData (v : bool)
| SetAnswer (v : jsstring)
| UpdateAnswer (f : jsstring -> jsstring)
| SetSources (v : list Source)
| SetError (v : option jsstring).

Definition perform (a : action) (s : State) : State :=
  match a with
  | Await _ => s
  | SetIsProcessing v =>
      {| urls := urls s; query := query s; isProcessing := v;
         isSearching := isSearching s; processedData := processedData s;
         answer := answer s; sources := sources s; error := error s |}
  | SetIsSearching v =>
      {| urls := urls s; query := query s; isProcessing := isProcessing s;
         isSearching := v; processedData := processedData s;
         answer := answer s; sources := sources s; error := error s |}
  | SetProcessedData v =>
      {| urls := urls s; query := query s; isProcessing := isProcessing s;
         isSearching := isSearching s; processedData := v;
         answer := answer s; sources := sources s; error := error s |}
  | SetAnswer v =>
      {| urls := urls s; query := query s; isProcessing := isProcessing s;
         isSearching := isSearching s; processedData := processedData s;
         answer := v; sources := sources s; error := error s |}
  | UpdateAnswer f =>
      {| urls := urls s; query := query s; isProcessing := isProcessing s;
         isSearching := isSearching s; processedData := processedData s;
         answer := f (answer s); sources := sources s; error := error s |}
  | SetSources v =>
      {| urls := urls s; query := query s; isProcessing := isProcessing s;
         isSearching := isSearching s; processedData := processedData s;
         answer := answer s; sources := v; error := error s |}
  | SetError v =>
      {| urls := urls s; query := query s; isProcessing := isProcessing s;
         isSearching := isSearching s; processedData := processedData s;
         answer := answer s; sources := sources s; error := v |}
  end.

(** Running a handler to its end, with nothing else in between. *)
Definition run (acts : list action) (s : State) : State :=
  fold_left (fun st a => perform a st) acts s.

(** The values the answer takes during a run: one entry per call of
    [setAnswer], in the order of the calls. *)
Fixpoint answerWrites (acts : list action) (s : State) : list jsstring :=
  match acts with
  | [] => []
  | a :: rest =>
      let s' := perform a s in
      match a with
      | SetAnswer _ | UpdateAnswer _ => answer s' :: answerWrites rest s'
      | _ => answerWrites rest s'
      end
  end.

(** ** processUrls *)

(** [urls.split('\n').filter(url => url.trim())] *)
Definition urlList (text : jsstring) : list jsstring :=
  filter nonBlank (split LF text).

(** [url.split('/').pop() || 'Article'] *)
Definition mockTitle (u : jsstring) : jsstring :=
  or_default (pop (split SLASH u)) (lit "Article").

(** [urlList.map(url => ({ url, title: ... }))] *)
Definition mockSources (text : jsstring) : list Source :=
  map (fun u => {| url := u; title := mockTitle u |}) (urlList text).

(** The handler reads [urls] from the render it was created in.  Nothing in
    the [try] block can throw (the awaited promise only resolves, and
    [split], [filter], [map] and [pop] do not throw on strings), so the
    [catch] block is never entered; the [finally] block is the last action. *)
Definition processUrls (s : State) : list action :=
  if negb (truthy (trim (urls s))) then
    [SetError (Some (lit "Please enter at least one URL"))]
  else
    [SetIsProcessing true; SetError None]
    ++ [Await 2000;
        SetSources (mockSources (urls s));
        SetProcessedData true;
        SetError None]
    ++ [SetIsProcessing false].

(** ** searchArticles *)

Definition mockAnswers : list jsstring :=
  [ lit "Based on the articles you've provided, ";
    lit "I can see that the topic you're asking about ";
    lit "is discussed in several sources. ";
    lit "The main points from the articles suggest that ";
    lit "this is an important development in the field. ";
    lit "According to the sources, there are multiple perspectives on this issue. ";
    lit "Some experts believe it will have significant impact, ";
    lit "while others are more cautious about the implications. ";
    lit "The data from these articles indicates a growing trend ";
    lit "that merits further investigation and analysis." ].

(** The loop [for (const part of parts) { await ...; setAnswer(prev => prev + part) }]. *)
Definition stream (parts : list jsstring) : list action :=
  flat_map (fun part => [Await 300; UpdateAnswer (fun prev => prev ++ part)])
           parts.

(** The handler reads [query] and [processedData] from the render it was
    created in.  As in [processUrls], the [catch] block is never entered. *)
Definition searchArticles (s : State) : list action :=
  if negb (truthy (trim (query s))) then
    [SetError (Some (lit "Please enter a question"))]
  else if negb (processedData s) then
    [SetError (Some (lit "Please process URLs first"))]
  else
    [SetIsSearching true; SetError None; SetAnswer []]
    ++ stream mockAnswers
    ++ [SetIsSearching false].

(** A state in which a question can be asked and is answered. *)
Definition ready (s : State) : Prop :=
  truthy (trim (query s)) = true /\ processedData s = true.

(** ** Rendering *)

(** The urls listed under "Sources:".  The list is inside the block guarded
    by [answer &&], and is itself guarded by [sources.length > 0]; each item
    shows [source.url]. *)
Definition displayedSources (s : State) : list jsstring :=
  if truthy (answer s) then map url (sources s) else [].

(** ** The component as a transition system *)

(** Typing into the two inputs ([onChange] calls [setUrls] and [setQuery]). *)
Definition setUrls (v : jsstring) (s : State) : State :=
  {| urls := v; query := query s; isProcessing := isProcessing s;
     isSearching := isSearching s; processedData := processedData s;
     answer := answer s; sources := sources s; error := error s |}.

Definition setQuery (v : jsstring) (s : State) : State :=
  {| urls := urls s; query := v; isProcessing := isProcessing s;
     isSearching := isSearching s; processedData := processedData s;
     answer := answer s; sources := sources s; error := error s |}.

(** A configuration is the current state together with the handlers that
    have been started and not yet finished, each with the actions it still
    has to perform. *)
Definition config := (State * list (list action))%type.

(** What can happen next: the user types into one of the inputs, clicks one
    of the buttons, or a handler that was started earlier and is suspended at
    an [await] goes on.  [Advance i] lets the [i]-th started handler perform
    its next action. *)
Inductive event :=
| TypeUrls (v : jsstring)
| TypeQuery (v : jsstring)
| ClickProcess
| ClickSearch
| Advance (i : nat).

(** The [i]-th handler performs its next action, if it has one left. *)
Fixpoint advance (i : nat) (s : State) (pending : list (list action))
  : config :=
  match pending, i with
  | [], _ => (s, [])
  | [] :: others, O => (s, [] :: others)
  | (a :: rest) :: others, O => (perform a s, rest :: others)
  | h :: others, S i' =>
      let (s', others') := advance i' s others in (s', h :: others')
  end.

(** A click starts a handler on the state of the current render; started
    handlers advance one action at a time, so they interleave with each other
    and with the user's typing.  The [disabled] attributes of the inputs and
    buttons only remove some of these steps. *)
Definition dispatch (c : config) (e : event) : config :=
  let (s, pending) := c in
  match e with
  | TypeUrls v => (setUrls v s, pending)
  | TypeQuery v => (setQuery v s, pending)
  | ClickProcess => (s, pending ++ [processUrls s])
  | ClickSearch => (s, pending ++ [searchArticles s])
  | Advance i => advance i s pending
  end.

Definition runEvents (evs : list event) (c : config) : config :=
  fold_left dispatch evs c.

(** An action that cannot clear the processed flag. *)
Definition keepsProcessed (a : action) : bool :=
  match a with
  | SetProcessedData false => false
  | _ => true
  end.

(** No started handler has an action left that clears the processed flag. *)
Definition pendingKeep (pending : list (list action)) : bool :=
  forallb (forallb keepsProcessed) pending.

(** An action that writes the answer, and started handlers that have no
    such action left. *)
Definition writesAnswer (a : action) : bool :=
  match a with
  | SetAnswer _ | UpdateAnswer _ => true
  | _ => false
  end.

Definition pendingSilent (pending : list (list action)) : bool :=
  forallb (forallb (fun a => negb (writesAnswer a))) pending.

(** As long as nothing has been processed, the answer is empty and no
    started handler is going to write it. *)
Definition quiet (c : config) : Prop :=
  pendingKeep (snd c) = true
  /\ (processedData (fst c) = false ->
      answer (fst c) = [] /\ pendingSilent (snd c) = true).

(** The state once every line of [text] has been typed into the URL box,
    "Process URLs" clicked, [q] typed as the question and "Search" clicked,
    each handler running to its end. *)
Definition session (text q : jsstring) : State :=
  let s1 := setUrls text initial in
  let s2 := run (processUrls s1) s1 in
  let s3 := setQuery q s2 in
  run (searchArticles s3) s3.

(** ** Sample inputs *)

Module Sample.

Definition article1 : jsstring := lit "https://example.com/article1".
Definition article2 : jsstring := lit "https://example.org/news/article2".
Definition question : jsstring := lit "What is new?".

(** Only spaces and line breaks. *)
Definition blankText : jsstring := lit "  " ++ [LF] ++ lit " " ++ [LF].

(** The same URL on two lines. *)
Definition repeatedText : jsstring := article1 ++ [LF] ++ article1.

Definition twoUrls : jsstring := article1 ++ [LF] ++ article2.

(** Nothing processed yet, a question typed. *)
Definition asked : State := setQuery question initial.

(** URLs typed, nothing processed yet. *)
Definition typed (text : jsstring) : State := setUrls text initial.

(** [text] processed, then a question typed. *)
Definition processed (text : jsstring) : State :=
  setQuery question (run (processUrls (typed text)) (typed text)).

(** [article1] processed and a question answered, then only blank lines
    typed into the URL box. *)
Definition answeredThenBlank : State :=
  setUrls blankText (session article1 question).

(** [article1] processed and a question answered, then another URL typed. *)
Definition resubmitted : State :=
  setUrls article2 (session article1 question).

(** [article1] is typed and processed, the handler running to its end. *)
Definition processing : list event :=
  [TypeUrls article1; ClickProcess] ++ repeat (Advance 0) 7.

(** Then a blank text is submitted, and a question is asked while the first
    answer is still streaming. *)
Definition afterwards : list event :=
  [TypeUrls blankText; ClickProcess; Advance 1;
   TypeQuery question; ClickSearch; Advance 2; Advance 2; Advance 2;
   Advance 2; Advance 2; TypeQuery []; ClickSearch; Advance 3; Advance 2;
   TypeUrls article2; ClickProcess; Advance 4; Advance 4; Advance 2;
   Advance 4].

End Sample.

(** ** The inputs and buttons *)

(** The URL box and the "Process URLs" button carry
    [disabled={isProcessing}]. *)
Definition processDisabled (s : State) : bool := isProcessing s.

(** The question box and the "Search" button carry
    [disabled={isSearching || !processedData}]. *)
Definition searchDisabled (s : State) : bool :=
  isSearching s || negb (processedData s).

(** A disabled input or button sends no event. *)
Definition enabled (s : State) (e : event) : bool :=
  match e with
  | TypeUrls _ | ClickProcess => negb (processDisabled s)
  | TypeQuery _ | ClickSearch => negb (searchDisabled s)
  | Advance _ => true
  end.

(** An [async] handler runs inside the click up to its first [await]; what
    is left of it goes on later. *)
Fixpoint startHandler (h : list action) (s : State) : State * list action :=
  match h with
  | [] => (s, [])
  | Await ms :: rest => (s, Await ms :: rest)
  | a :: rest => startHandler rest (perform a s)
  end.

(** One step of the component as the page drives it: events of disabled
    elements do not happen, and the state a click leaves behind is the one
    the next render, and so the next click, sees. *)
Definition uiDispatch (c : config) (e : event) : config :=
  let (s, pending) := c in
  if enabled s e then
    match e with
    | ClickProcess =>
        let (s', rest) := startHandler (processUrls s) s in
        (s', pending ++ [rest])
    | ClickSearch =>
        let (s', rest) := startHandler (searchArticles s) s in
        (s', pending ++ [rest])
    | _ => dispatch c e
    end
  else c.

Definition runUi (evs : list event) (c : config) : config :=
  fold_left uiDispatch evs c.

(** The events of the free transition system that one step of the page
    stands for. *)
Fixpoint syncLength (h : list action) : nat :=
  match h with
  | [] => O
  | Await _ :: _ => O
  | _ :: rest => S (syncLength rest)
  end.

Definition expand (c : config) (e : event) : list event :=
  let (s, pending) := c in
  if enabled s e then
    match e with
    | ClickProcess =>
        ClickProcess
        :: repeat (Advance (length pending)) (syncLength (processUrls s))
    | ClickSearch =>
        ClickSearch
        :: repeat (Advance (length pending)) (syncLength (searchArticles s))
    | _ => [e]
    end
  else [].

Fixpoint expandAll (evs : list event) (c : config) : list event :=
  match evs with
  | [] => []
  | e :: rest => expand c e ++ expandAll rest (uiDispatch c e)
  end.

(** Every started handler has performed all its actions. *)
Definition finished (pending : list (list action)) : bool :=
  forallb (fun h => match h with [] => true | _ :: _ => false end) pending.

(** *** The two busy flags *)

(** The value an action gives to [isProcessing], to [isSearching]. *)
Definition setsProcessing (a : action) : option bool :=
  match a with
  | SetIsProcessing v => Some v
  | _ => None
  end.

Definition setsSearching (a : action) : option bool :=
  match a with
  | SetIsSearching v => Some v
  | _ => None
  end.

Definition clears (sets : action -> option bool) (a : action) : bool :=
  match sets a with
  | Some false => true
  | _ => false
  end.

(** Wherever the handler raises the flag, it lowers it again later on. *)
Fixpoint closes (sets : action -> option bool) (h : list action) : bool :=
  match h with
  | [] => true
  | a :: rest =>
      match sets a with
      | Some true => existsb (clears sets) rest
      | _ => true
      end && closes sets rest
  end.

(** No started handler raises the flag without lowering it later, and
    while the flag is up some started handler is still going to lower it. *)
Definition lowered (get : State -> bool) (sets : action -> option bool)
           (c : config) : Prop :=
  forallb (closes sets) (snd c) = true
  /\ (get (fst c) = true ->
      existsb (existsb (clears sets)) (snd c) = true).

(** *** Handlers that touch the answer *)

(** An action that leaves [answer] and [isSearching] alone. *)
Definition searchFree (a : action) : bool :=
  match a with
  | SetAnswer _ | UpdateAnswer _ | SetIsSearching _ => false
  | _ => true
  end.

(** The started handlers that still have to write the answer or to lower
    [isSearching]. *)
Definition streaming (pending : list (list action)) : list (list action) :=
  filter (fun h => negb (forallb searchFree h)) pending.

(** The action [setAnswer(prev => prev + part)]. *)
Definition appendPart (part : jsstring) : action :=
  UpdateAnswer (fun prev => prev ++ part).

(** What is left of the streaming loop once the parts [done] are in the
    answer [a]: the loop over the other parts, before or after the [await]
    of the next one, and the [finally] block. *)
Definition streamTail (a : jsstring) (h : list action) : Prop :=
  exists done rest,
    mockAnswers = done ++ rest
    /\ a = concatAll done
    /\ (h = stream rest ++ [SetIsSearching false]
        \/ exists part rest',
             rest = part :: rest'
             /\ h = appendPart part :: stream rest' ++ [SetIsSearching false]).

(** The answer is made of the first fragments of [mockAnswers], whole ones;
    when no search is running it has none of them or all of them; a running
    search is the only handler that writes it. *)
Definition wholeFragments (c : config) : Prop :=
  (isSearching (fst c) = false ->
     streaming (snd c) = []
     /\ (answer (fst c) = [] \/ answer (fst c) = concatAll mockAnswers))
  /\ (isSearching (fst c) = true ->
      exists h, streaming (snd c) = [h] /\ streamTail (answer (fst c)) h).

(** *** The message of the readiness guard *)

Definition notReady : jsstring := lit "Please process URLs first".

Definition raisesNotReady (a : action) : bool :=
  match a with
  | SetError (Some m) => if list_eq_dec N.eq_dec m notReady then true else false
  | _ => false
  end.

(** The message is not on the page and no started handler is going to put
    it there. *)
Definition neverNotReady (c : config) : Prop :=
  error (fst c) <> Some notReady
  /\ forallb (forallb (fun a => negb (raisesNotReady a))) (snd c) = true.

Module More.

(** A question is asked while an earlier processing is still waiting, and
    every handler is then advanced to its end. *)
Definition overlapping : list event :=
  [TypeUrls Sample.article1; ClickProcess] ++ repeat (Advance 0) 7
  ++ [TypeQuery Sample.question; TypeUrls Sample.article2;
      ClickProcess; Advance 1; ClickSearch; Advance 2; Advance 1; Advance 2]
  ++ repeat (Advance 1) 5 ++ repeat (Advance 2) 22.

(** The page: a blank submission, a real one, a question while the second
    processing waits, clicks on disabled buttons. *)
Definition clicking : list event :=
  [ClickSearch; TypeQuery Sample.question; ClickProcess;
   TypeUrls Sample.twoUrls; ClickProcess; ClickProcess; Advance 1;
   Advance 1; Advance 1; Advance 1; Advance 1;
   TypeQuery Sample.question; ClickSearch; ClickSearch;
   Advance 2; Advance 2; Advance 2; Advance 2; Advance 2].

(** Without the [disabled] attributes: "Search" is clicked twice in a row,
    the first handler writes the first fragment, the second one resets the
    answer, and the first one goes on with the second fragment. *)
Definition garbling : list event :=
  [TypeUrls Sample.article1; ClickProcess] ++ repeat (Advance 0) 7
  ++ [TypeQuery Sample.question; ClickSearch; ClickSearch]
  ++ repeat (Advance 1) 5 ++ repeat (Advance 2) 3 ++ repeat (Advance 1) 2.

End More.

(** * Properties *)

(** ** Strings *)

Section Strings.

Lemma truthy_false_iff (s : jsstring) : truthy s = false <-> s = [].
Proof. destruct s; simpl; split; congruence. Qed.

Lemma trimStart_nil_iff (s : jsstring) :
  trimStart s = [] <-> forallb isTrimmed s = true.
Proof.
  induction s as [|c t IH]; simpl.
  - tauto.
  - destruct (isTrimmed c) eqn:Hc; simpl.
    + exact IH.
    + split; discriminate.
Qed.

(** What [trimStart] leaves starts with a code unit that is kept. *)
Lemma trimStart_head (s : jsstring) c t :
  trimStart s = c :: t -> isTrimmed c = false.
Proof.
  induction s as [|d u IH]; simpl; [discriminate|].
  destruct (isTrimmed d) eqn:Hd; [exact IH|].
  intros H; injection H as -> _. exact Hd.
Qed.

Lemma forallb_rev {A} (p : A -> bool) (l : list A) :
  forallb p (rev l) = forallb p l.
Proof.
  induction l as [|x l IH]; simpl; [reflexivity|].
  rewrite forallb_app, IH; simpl.
  rewrite andb_true_r. apply andb_comm.
Qed.

Lemma rev_nil_iff {A} (l : list A) : rev l = [] <-> l = [].
Proof.
  split; intros H.
  - rewrite <- (rev_involutive l), H. reflexivity.
  - subst. reflexivity.
Qed.

(** [s.trim()] is the empty string exactly when [s] holds nothing but
    white space and line terminators. *)
Lemma trim_nil_iff (s : jsstring) :
  trim s = [] <-> forallb isTrimmed s = true.
Proof.
  unfold trim, trimEnd. split.
  - intros H. apply (proj1 (rev_nil_iff _)) in H.
    apply (proj1 (trimStart_nil_iff _)) in H.
    rewrite forallb_rev in H.
    destruct (trimStart s) as [|c t] eqn:Hs.
    + apply trimStart_nil_iff. exact Hs.
    + apply trimStart_head in Hs. simpl in H. rewrite Hs in H. discriminate.
  - intros H. apply (proj2 (trimStart_nil_iff _)) in H. rewrite H. reflexivity.
Qed.

Lemma nonBlank_false_iff (s : jsstring) :
  nonBlank s = false <-> forallb isTrimmed s = true.
Proof.
  unfold nonBlank. rewrite truthy_false_iff. apply trim_nil_iff.
Qed.

Lemma split_not_nil sep (s : jsstring) : split sep s <> [].
Proof.
  induction s as [|c t IH]; simpl; [discriminate|].
  destruct (c =? sep); [discriminate|].
  destruct (split sep t); discriminate.
Qed.

(** Every piece of [s.split('\n')] is blank exactly when [s] is. *)
Lemma lines_blank_iff (s : jsstring) :
  forallb (fun line => negb (nonBlank line)) (split LF s) = true
  <-> forallb isTrimmed s = true.
Proof.
  assert (Hnil : nonBlank [] = false) by reflexivity.
  assert (Hcons : forall c l, nonBlank (c :: l) = false
                              <-> isTrimmed c = true /\ nonBlank l = false).
  { intros c l. rewrite !nonBlank_false_iff. simpl.
    rewrite andb_true_iff. tauto. }
  induction s as [|c t IH]; simpl.
  - tauto.
  - destruct (c =? LF) eqn:Hc.
    + apply N.eqb_eq in Hc. subst c. simpl. exact IH.
    + destruct (split LF t) as [|piece pieces] eqn:Hsp.
      { exfalso. exact (split_not_nil _ _ Hsp). }
      simpl in *. rewrite !andb_true_iff, !negb_true_iff in *.
      rewrite Hcons. tauto.
Qed.

Example split_url :
  split SLASH (lit "https://example.com/article1")
  = [lit "https:"; lit ""; lit "example.com"; lit "article1"].
Proof. reflexivity. Qed.

Example split_trailing_slash :
  split SLASH (lit "example.com/news/") = [lit "example.com"; lit "news"; []].
Proof. reflexivity. Qed.

Example split_empty : split LF [] = [[]].
Proof. reflexivity. Qed.

Example trim_both_ends : trim (lit "  a b " ++ [LF]) = lit "a b".
Proof. reflexivity. Qed.

Example urlList_skips_blank_lines :
  urlList (lit "a" ++ [LF] ++ lit "  " ++ [LF] ++ [LF] ++ lit " b")
  = [lit "a"; lit " b"].
Proof. reflexivity. Qed.

Example mockTitle_trailing_slash :
  mockTitle (lit "https://example.com/news/") = lit "Article".
Proof. reflexivity. Qed.

Lemma pop_is_Some {A} (l : list A) : l <> [] -> exists x, pop l = Some x.
Proof.
  induction l as [|x l IH]; [congruence|]. intros _.
  destruct l as [|y l]; [exists x; reflexivity|].
  destruct IH as [z Hz]; [discriminate|]. exists z. exact Hz.
Qed.

End Strings.

(** ** Running handlers *)

Section Handlers.

Lemma run_app (a b : list action) (s : State) :
  run (a ++ b) s = run b (run a s).
Proof. unfold run. apply fold_left_app. Qed.

Lemma answerWrites_app (a b : list action) (s : State) :
  answerWrites (a ++ b) s = answerWrites a s ++ answerWrites b (run a s).
Proof.
  revert s. induction a as [|x a IH]; intros s; simpl; [reflexivity|].
  destruct x; simpl; rewrite IH; reflexivity.
Qed.

(** The streaming loop appends the parts to the answer, in their order, and
    touches nothing else. *)
Lemma run_stream (parts : list jsstring) (s : State) :
  run (stream parts) s = perform (SetAnswer (answer s ++ concatAll parts)) s.
Proof.
  revert s. induction parts as [|p parts IH]; intros s.
  - destruct s; simpl. rewrite app_nil_r. reflexivity.
  - change (stream (p :: parts))
      with ([Await 300; UpdateAnswer (fun prev => prev ++ p)] ++ stream parts).
    rewrite run_app, IH. simpl. rewrite app_assoc. reflexivity.
Qed.

(** After its [n]-th iteration the loop has appended the first [n] parts. *)
Lemma answerWrites_stream (parts : list jsstring) (s : State) :
  answerWrites (stream parts) s
  = map (fun n => answer s ++ concatAll (firstn n parts))
        (seq 1 (length parts)).
Proof.
  revert s. induction parts as [|p parts IH]; intros s; [reflexivity|].
  simpl. rewrite IH. simpl. rewrite app_nil_r. f_equal.
  rewrite <- (seq_shift _ 1), map_map. apply map_ext.
  intros n. simpl. rewrite app_assoc. reflexivity.
Qed.

Lemma searchArticles_ready (s : State) :
  ready s ->
  searchArticles s
  = [SetIsSearching true; SetError None; SetAnswer []]
    ++ stream mockAnswers ++ [SetIsSearching false].
Proof.
  intros [Hq Hp]. unfold searchArticles. rewrite Hq, Hp. reflexivity.
Qed.

Lemma run_searchArticles_ready (s : State) :
  ready s ->
  run (searchArticles s) s
  = perform (SetIsSearching false)
      (perform (SetError None)
         (perform (SetAnswer (concatAll mockAnswers)) s)).
Proof.
  intros H. rewrite (searchArticles_ready s H).
  rewrite run_app, run_app, run_stream.
  destruct s; reflexivity.
Qed.

Lemma answer_searchArticles_ready (s : State) :
  ready s -> answer (run (searchArticles s) s) = concatAll mockAnswers.
Proof. intros H. rewrite (run_searchArticles_ready s H). reflexivity. Qed.

Lemma processUrls_accepted (s : State) :
  truthy (trim (urls s)) = true ->
  run (processUrls s) s
  = perform (SetIsProcessing false)
      (perform (SetError None)
         (perform (SetProcessedData true)
            (perform (SetSources (mockSources (urls s))) s))).
Proof.
  intros H. unfold processUrls. rewrite H. destruct s; reflexivity.
Qed.

Lemma processUrls_rejected (s : State) :
  truthy (trim (urls s)) = false ->
  processUrls s = [SetError (Some (lit "Please enter at least one URL"))].
Proof. intros H. unfold processUrls. rewrite H. reflexivity. Qed.

Lemma url_mockSources (text : jsstring) :
  map url (mockSources text) = urlList text.
Proof. unfold mockSources. rewrite map_map. apply map_id. Qed.

End Handlers.

(** ** Answering *)

Section Answering.

(** C1. A run of [searchArticles] on a processed batch with a non-blank
    question appends the fragments of [mockAnswers] one by one in their
    order: the answer is first reset to the empty string, after the [n]-th
    iteration it is the concatenation of the first [n] fragments, and at the
    end it is the concatenation of all of them. *)
Theorem C1_fragments_in_order (s : State) :
  ready s ->
  answerWrites (searchArticles s) s
  = map (fun n => concatAll (firstn n mockAnswers))
        (seq 0 (S (length mockAnswers)))
  /\ answer (run (searchArticles s) s) = concatAll mockAnswers.
Proof.
  intros H. split.
  - rewrite (searchArticles_ready s H).
    rewrite answerWrites_app, answerWrites_app, answerWrites_stream.
    change (seq 0 (S (length mockAnswers)))
      with (0%nat :: seq 1 (length mockAnswers)).
    destruct s; reflexivity.
  - rewrite (run_searchArticles_ready s H). reflexivity.
Qed.

Lemma C1_fragments_in_order_witness :
  ready (Sample.processed Sample.article1)
  /\ answer (run (searchArticles (Sample.processed Sample.article1))
                 (Sample.processed Sample.article1))
     = concatAll mockAnswers.
Proof.
  split.
  - split; reflexivity.
  - apply (C1_fragments_in_order (Sample.processed Sample.article1)).
    split; reflexivity.
Defined.

(** C10. Two runs of [searchArticles] on ready states end with the same
    answer, whatever the questions, the URL texts and the sources of the two
    states are: each of the two answers is the fixed mock text, the
    concatenation of the fragments of [mockAnswers]. *)
Theorem C10_answer_independent_of_inputs (s1 s2 : State) :
  ready s1 -> ready s2 ->
  answer (run (searchArticles s1) s1) = concatAll mockAnswers
  /\ answer (run (searchArticles s2) s2) = concatAll mockAnswers
  /\ answer (run (searchArticles s1) s1)
     = answer (run (searchArticles s2) s2).
Proof.
  intros H1 H2.
  rewrite (run_searchArticles_ready s1 H1), (run_searchArticles_ready s2 H2).
  repeat split; reflexivity.
Qed.

Lemma C10_answer_independent_of_inputs_witness :
  ready (Sample.processed Sample.article1)
  /\ ready (setQuery (lit "Why?") (Sample.processed Sample.twoUrls))
  /\ answer (run (searchArticles (Sample.processed Sample.article1))
                 (Sample.processed Sample.article1))
     = concatAll mockAnswers
  /\ answer (run (searchArticles
                    (setQuery (lit "Why?") (Sample.processed Sample.twoUrls)))
                 (setQuery (lit "Why?") (Sample.processed Sample.twoUrls)))
     = concatAll mockAnswers
  /\ concatAll mockAnswers <> [].
Proof.
  split; [split; reflexivity|]. split; [split; reflexivity|].
  destruct (C10_answer_independent_of_inputs
              (Sample.processed Sample.article1)
              (setQuery (lit "Why?") (Sample.processed Sample.twoUrls))
              (conj eq_refl eq_refl) (conj eq_refl eq_refl))
    as [E1 [E2 _]].
  split; [exact E1|]. split; [exact E2|].
  vm_compute. discriminate.
Defined.

(** C5. With a non-blank question, [searchArticles] on a state whose
    processed flag is false only sets the error 'Please process URLs first':
    it writes no answer and leaves every other field as it was.  On a state
    whose processed flag is true it clears the error and produces the
    answer. *)
Theorem C5_not_ready_rejected (s : State) :
  truthy (trim (query s)) = true ->
  (processedData s = false ->
     run (searchArticles s) s
     = perform (SetError (Some (lit "Please process URLs first"))) s
     /\ answerWrites (searchArticles s) s = []
     /\ answer (run (searchArticles s) s) = answer s)
  /\ (processedData s = true ->
        error (run (searchArticles s) s) = None
        /\ answer (run (searchArticles s) s) = concatAll mockAnswers).
Proof.
  intros Hq. split; intros Hp.
  - unfold searchArticles. rewrite Hq, Hp. simpl. repeat split; reflexivity.
  - rewrite (run_searchArticles_ready s (conj Hq Hp)). split; reflexivity.
Qed.

Lemma C5_not_ready_rejected_witness :
  (truthy (trim (query Sample.asked)) = true
   /\ processedData Sample.asked = false
   /\ error (run (searchArticles Sample.asked) Sample.asked)
      = Some (lit "Please process URLs first")
   /\ answer (run (searchArticles Sample.asked) Sample.asked) = [])
  /\ (truthy (trim (query (Sample.processed Sample.article1))) = true
      /\ processedData (Sample.processed Sample.article1) = true
      /\ error (run (searchArticles (Sample.processed Sample.article1))
                    (Sample.processed Sample.article1)) = None).
Proof.
  split.
  - split; [reflexivity|]. split; [reflexivity|].
    destruct (C5_not_ready_rejected Sample.asked eq_refl) as [Hno _].
    destruct (Hno eq_refl) as [Hrun [_ Hans]].
    split.
    + rewrite Hrun. reflexivity.
    + rewrite Hans. reflexivity.
  - split; [reflexivity|]. split; [reflexivity|].
    destruct (C5_not_ready_rejected (Sample.processed Sample.article1) eq_refl)
      as [_ Hyes].
    exact (proj1 (Hyes eq_refl)).
Defined.

End Answering.

(** ** Processing *)

Section Processing.

(** C4. When every line of the URL text is empty or blank, [processUrls]
    only sets the error 'Please enter at least one URL': the processed flag
    and the sources keep the values they had. *)
Theorem C4_blank_input_rejected (s : State) :
  forallb (fun line => negb (nonBlank line)) (split LF (urls s)) = true ->
  run (processUrls s) s
  = perform (SetError (Some (lit "Please enter at least one URL"))) s
  /\ error (run (processUrls s) s)
     = Some (lit "Please enter at least one URL")
  /\ processedData (run (processUrls s) s) = processedData s
  /\ sources (run (processUrls s) s) = sources s.
Proof.
  intros H. apply lines_blank_iff in H. apply trim_nil_iff in H.
  apply truthy_false_iff in H.
  rewrite (processUrls_rejected s H). repeat split; reflexivity.
Qed.

Lemma C4_blank_input_rejected_witness :
  forallb (fun line => negb (nonBlank line))
          (split LF (urls Sample.answeredThenBlank)) = true
  /\ processedData (run (processUrls Sample.answeredThenBlank)
                        Sample.answeredThenBlank) = true
  /\ sources (run (processUrls Sample.answeredThenBlank)
                  Sample.answeredThenBlank)
     = [ {| url := Sample.article1; title := lit "article1" |} ].
Proof.
  split; [reflexivity|].
  destruct (C4_blank_input_rejected Sample.answeredThenBlank eq_refl)
    as [_ [_ [Hp Hs]]].
  split.
  - rewrite Hp. reflexivity.
  - rewrite Hs. reflexivity.
Defined.

(** C6. When the URL text is not blank, [processUrls] sets the sources to
    the mock sources of that text, whatever the sources were before: every
    entry of the new collection is a non-blank line of the new text. *)
Theorem C6_new_batch_replaces_sources (s : State) :
  truthy (trim (urls s)) = true ->
  sources (run (processUrls s) s) = mockSources (urls s)
  /\ processedData (run (processUrls s) s) = true
  /\ forall src, In src (sources (run (processUrls s) s)) ->
       In (url src) (split LF (urls s)) /\ nonBlank (url src) = true.
Proof.
  intros H. rewrite (processUrls_accepted s H).
  split; [reflexivity|]. split; [reflexivity|].
  intros src Hin. simpl in Hin.
  apply (in_map url) in Hin. rewrite url_mockSources in Hin.
  unfold urlList in Hin. apply filter_In in Hin. exact Hin.
Qed.

Lemma C6_new_batch_replaces_sources_witness :
  truthy (trim (urls Sample.resubmitted)) = true
  /\ sources Sample.resubmitted
     = [ {| url := Sample.article1; title := lit "article1" |} ]
  /\ sources (run (processUrls Sample.resubmitted) Sample.resubmitted)
     = [ {| url := Sample.article2; title := lit "article2" |} ].
Proof.
  split; [reflexivity|]. split; [reflexivity|].
  rewrite (proj1 (C6_new_batch_replaces_sources Sample.resubmitted eq_refl)).
  reflexivity.
Defined.

(** *** Sources and input lines *)

(** C3, as stated, fails: the same URL on two lines gives two entries with
    that url. *)
Lemma C3_counterexample :
  sources (run (processUrls (Sample.typed Sample.repeatedText))
               (Sample.typed Sample.repeatedText))
  = [ {| url := Sample.article1; title := lit "article1" |};
      {| url := Sample.article1; title := lit "article1" |} ]
  /\ ~ NoDup (map url (sources (run (processUrls (Sample.typed Sample.repeatedText))
                                    (Sample.typed Sample.repeatedText)))).
Proof.
  split; [reflexivity|].
  intros H. inversion H as [|x l Hnotin _]; subst.
  apply Hnotin. left. reflexivity.
Qed.

(** C3, amended. After a successful [processUrls] the sources hold one entry
    per non-blank line of the URL text, in the order of the lines; so their
    urls are pairwise distinct exactly when the non-blank lines are. *)
Theorem C3_one_source_per_line (s : State) :
  truthy (trim (urls s)) = true ->
  map url (sources (run (processUrls s) s)) = urlList (urls s)
  /\ (NoDup (map url (sources (run (processUrls s) s)))
      <-> NoDup (urlList (urls s))).
Proof.
  intros H. rewrite (processUrls_accepted s H). simpl.
  rewrite url_mockSources. split; [reflexivity | tauto].
Qed.

Lemma C3_one_source_per_line_witness :
  truthy (trim (urls (Sample.typed Sample.twoUrls))) = true
  /\ map url (sources (run (processUrls (Sample.typed Sample.twoUrls))
                           (Sample.typed Sample.twoUrls)))
     = [Sample.article1; Sample.article2].
Proof.
  split; [reflexivity|].
  rewrite (proj1 (C3_one_source_per_line (Sample.typed Sample.twoUrls) eq_refl)).
  reflexivity.
Defined.

(** *** Titles *)

Lemma pop_last {A} (l : list A) (x : A) : pop (l ++ [x]) = Some x.
Proof.
  induction l as [|y l IH]; [reflexivity|].
  simpl. rewrite IH. destruct (l ++ [x]) eqn:E; [|reflexivity].
  destruct l; discriminate.
Qed.

(** [s.split(sep)] cuts [s] at every [sep]: the pieces hold no [sep], and
    joined again with [sep] they give [s] back. *)
Lemma split_pieces (sep : N) (u : jsstring) :
  exists front seg,
    split sep u = front ++ [seg]
    /\ u = flat_map (fun piece => piece ++ [sep]) front ++ seg
    /\ ~ In sep seg.
Proof.
  induction u as [|c t (front & seg & Hsp & Hu & Hseg)]; simpl.
  - exists [], []. repeat split. intros [].
  - destruct (c =? sep) eqn:Hc.
    + apply N.eqb_eq in Hc. subst c.
      exists ([] :: front), seg. rewrite Hsp. simpl. rewrite <- Hu.
      repeat split. exact Hseg.
    + apply N.eqb_neq in Hc. rewrite Hsp.
      destruct front as [|piece front]; simpl in *.
      * exists [], (c :: seg). simpl. subst t. repeat split.
        intros [E | E]; [congruence | exact (Hseg E)].
      * exists ((c :: piece) :: front), seg. simpl. rewrite <- Hu.
        repeat split. exact Hseg.
Qed.

(** C7, as stated, fails: a URL whose last segment is the word 'Article'
    gets the title 'Article' although that segment is not empty. *)
Lemma C7_counterexample :
  pop (split SLASH (lit "https://example.com/Article")) = Some (lit "Article")
  /\ mockTitle (lit "https://example.com/Article") = lit "Article"
  /\ ~ (mockTitle (lit "https://example.com/Article") = lit "Article"
        <-> lit "Article" = []).
Proof.
  split; [reflexivity|]. split; [reflexivity|].
  intros [H _]. specialize (H eq_refl). discriminate H.
Qed.

(** C7, amended. The title is the last '/'-separated segment of the URL
    when that segment is not empty, and 'Article' when it is empty; so the
    title is 'Article' exactly when the last segment is empty or is itself
    'Article'. *)
Theorem C7_title_is_last_segment (u : jsstring) :
  exists front seg,
    split SLASH u = front ++ [seg]
    /\ u = flat_map (fun piece => piece ++ [SLASH]) front ++ seg
    /\ ~ In SLASH seg
    /\ (seg <> [] -> mockTitle u = seg)
    /\ (seg = [] -> mockTitle u = lit "Article")
    /\ (mockTitle u = lit "Article" <-> seg = [] \/ seg = lit "Article").
Proof.
  destruct (split_pieces SLASH u) as (front & seg & Hsp & Hu & Hseg).
  exists front, seg. split; [exact Hsp|]. split; [exact Hu|].
  split; [exact Hseg|].
  unfold mockTitle. rewrite Hsp, pop_last. unfold or_default, or_else.
  destruct seg as [|c seg']; simpl.
  - split; [congruence|]. split; [reflexivity|]. tauto.
  - split; [reflexivity|]. split; [discriminate|].
    split; [tauto|]. intros [E | E]; [discriminate | exact E].
Qed.

End Processing.

(** ** Sources shown with an answer *)

Section Shown.

Lemma session_accepted (text q : jsstring) :
  truthy (trim text) = true -> truthy (trim q) = true ->
  session text q
  = perform (SetIsSearching false)
      (perform (SetError None)
         (perform (SetAnswer (concatAll mockAnswers))
            (setQuery q (run (processUrls (setUrls text initial))
                             (setUrls text initial))))).
Proof.
  intros Ht Hq. unfold session. apply run_searchArticles_ready.
  rewrite (processUrls_accepted (setUrls text initial) Ht).
  split; [exact Hq | reflexivity].
Qed.

(** C2, as stated, fails: [article1] is listed as a source of the answer,
    and the answer is the same when [article1] is not submitted at all, and
    whatever URL text and sources the state holds when the question is
    asked. *)
Lemma C2_counterexample :
  In Sample.article1
     (displayedSources (session Sample.twoUrls Sample.question))
  /\ ~ In Sample.article1 (urlList Sample.article2)
  /\ answer (session Sample.article2 Sample.question)
     = answer (session Sample.twoUrls Sample.question)
  /\ (forall text srcs,
        answer (run (searchArticles
                       (perform (SetSources srcs)
                          (setUrls text (Sample.processed Sample.twoUrls))))
                    (perform (SetSources srcs)
                       (setUrls text (Sample.processed Sample.twoUrls))))
        = answer (session Sample.twoUrls Sample.question)).
Proof.
  split; [left; reflexivity|].
  split; [intros [H | []]; discriminate H|].
  split; [reflexivity|].
  intros text srcs. transitivity (concatAll mockAnswers).
  - apply answer_searchArticles_ready. split; reflexivity.
  - vm_compute. reflexivity.
Qed.

(** C2, amended. Whatever state the component is in, and so whatever
    batches were processed and whatever answers produced before: once a
    non-blank text is processed and a non-blank question answered, the
    sources shown are the non-blank lines of that text, all of them and in
    their order, with nothing left of earlier batches.  More generally every
    answer produced comes with the urls of the whole sources collection as
    it stands, and nothing is shown while the answer is empty. *)
Theorem C2_displayed_sources_are_the_lines (s : State) (q : jsstring) :
  truthy (trim (urls s)) = true -> truthy (trim q) = true ->
  displayedSources
    (run (searchArticles (setQuery q (run (processUrls s) s)))
         (setQuery q (run (processUrls s) s)))
  = urlList (urls s)
  /\ (forall s', ready s' ->
        displayedSources (run (searchArticles s') s') = map url (sources s'))
  /\ (forall s', truthy (answer s') = false -> displayedSources s' = []).
Proof.
  intros Ht Hq.
  assert (Hshown : forall s', ready s' ->
            displayedSources (run (searchArticles s') s')
            = map url (sources s')).
  { intros s' H'. rewrite (run_searchArticles_ready s' H').
    unfold displayedSources. reflexivity. }
  split; [|split].
  - rewrite Hshown.
    + rewrite (processUrls_accepted s Ht). simpl. apply url_mockSources.
    + rewrite (processUrls_accepted s Ht). split; [exact Hq | reflexivity].
  - exact Hshown.
  - intros s' Ha. unfold displayedSources. rewrite Ha. reflexivity.
Qed.

Lemma C2_displayed_sources_are_the_lines_witness :
  truthy (trim (urls Sample.resubmitted)) = true
  /\ truthy (trim Sample.question) = true
  /\ map url (sources Sample.resubmitted) = [Sample.article1]
  /\ displayedSources
       (run (searchArticles
               (setQuery Sample.question
                  (run (processUrls Sample.resubmitted) Sample.resubmitted)))
            (setQuery Sample.question
               (run (processUrls Sample.resubmitted) Sample.resubmitted)))
     = [Sample.article2].
Proof.
  split; [reflexivity|]. split; [reflexivity|]. split; [reflexivity|].
  rewrite (proj1 (C2_displayed_sources_are_the_lines
                    Sample.resubmitted Sample.question eq_refl eq_refl)).
  reflexivity.
Defined.

End Shown.

(** ** The processed flag *)

Section Processed.

Lemma perform_keeps (a : action) (s : State) :
  keepsProcessed a = true -> processedData s = true ->
  processedData (perform a s) = true.
Proof.
  destruct a as [ | | |[|]| | | | ]; simpl; intros Ha Hs;
    first [exact Hs | reflexivity | discriminate Ha].
Qed.

Lemma stream_keeps (parts : list jsstring) :
  forallb keepsProcessed (stream parts) = true.
Proof. induction parts as [|p parts IH]; [reflexivity | exact IH]. Qed.

Lemma processUrls_keeps (s : State) :
  forallb keepsProcessed (processUrls s) = true.
Proof. unfold processUrls. destruct (negb _); reflexivity. Qed.

Lemma searchArticles_keeps (s : State) :
  forallb keepsProcessed (searchArticles s) = true.
Proof.
  unfold searchArticles. destruct (negb _); [reflexivity|].
  destruct (negb _); [reflexivity|].
  rewrite !forallb_app, stream_keeps. reflexivity.
Qed.

Lemma pendingKeep_snoc (pending : list (list action)) (h : list action) :
  pendingKeep pending = true -> forallb keepsProcessed h = true ->
  pendingKeep (pending ++ [h]) = true.
Proof.
  intros Hp Hh. unfold pendingKeep in *. rewrite forallb_app, Hp. simpl.
  rewrite Hh. reflexivity.
Qed.

Lemma advance_keeps (i : nat) (s : State) (pending : list (list action)) :
  pendingKeep pending = true ->
  pendingKeep (snd (advance i s pending)) = true
  /\ (processedData s = true ->
      processedData (fst (advance i s pending)) = true).
Proof.
  revert i. induction pending as [|h others IH]; intros i Hp.
  - destruct i; simpl; tauto.
  - simpl in Hp. apply andb_true_iff in Hp. destruct Hp as [Hh Ho].
    destruct i as [|i'].
    + destruct h as [|a rest]; simpl.
      * rewrite Ho. tauto.
      * simpl in Hh. apply andb_true_iff in Hh. destruct Hh as [Ha Hrest].
        rewrite Hrest, Ho. split; [reflexivity|].
        intros Hs. exact (perform_keeps a s Ha Hs).
    + destruct (IH i' Ho) as [IH1 IH2].
      assert (E : advance (S i') s (h :: others)
                  = (fst (advance i' s others),
                     h :: snd (advance i' s others))).
      { destruct h; simpl; destruct (advance i' s others); reflexivity. }
      rewrite E. simpl. rewrite Hh, IH1. tauto.
Qed.

Lemma dispatch_keeps (c : config) (e : event) :
  pendingKeep (snd c) = true ->
  pendingKeep (snd (dispatch c e)) = true
  /\ (processedData (fst c) = true ->
      processedData (fst (dispatch c e)) = true).
Proof.
  destruct c as [s pending]. simpl. intros Hp.
  destruct e; simpl.
  - tauto.
  - tauto.
  - split; [|tauto]. apply pendingKeep_snoc; [exact Hp|].
    apply processUrls_keeps.
  - split; [|tauto]. apply pendingKeep_snoc; [exact Hp|].
    apply searchArticles_keeps.
  - apply advance_keeps. exact Hp.
Qed.

Lemma runEvents_keeps (evs : list event) (c : config) :
  pendingKeep (snd c) = true ->
  pendingKeep (snd (runEvents evs c)) = true
  /\ (processedData (fst c) = true ->
      processedData (fst (runEvents evs c)) = true).
Proof.
  revert c. induction evs as [|e evs IH]; intros c Hp; simpl.
  - tauto.
  - destruct (dispatch_keeps c e Hp) as [H1 H2].
    destruct (IH (dispatch c e) H1) as [H3 H4].
    split; [exact H3 | tauto].
Qed.

(** A handler that is started and advanced to its end without anything in
    between does what [run] says. *)
Lemma advance_to_end (h : list action) (s : State)
      (others : list (list action)) :
  runEvents (repeat (Advance 0) (length h)) (s, h :: others)
  = (run h s, [] :: others).
Proof.
  revert s. induction h as [|a rest IH]; intros s; [reflexivity|].
  simpl. exact (IH (perform a s)).
Qed.

(** [advance] either changes nothing or lets one handler perform its next
    action. *)
Lemma advance_cases (i : nat) (s : State) (pending : list (list action)) :
  advance i s pending = (s, pending)
  \/ exists front a rest back,
       pending = front ++ (a :: rest) :: back
       /\ advance i s pending = (perform a s, front ++ rest :: back).
Proof.
  revert i. induction pending as [|h others IH]; intros i.
  - left. destruct i; reflexivity.
  - destruct i as [|i'].
    + destruct h as [|a rest]; [left; reflexivity|].
      right. exists [], a, rest, others. split; reflexivity.
    + assert (E : advance (S i') s (h :: others)
                  = (fst (advance i' s others),
                     h :: snd (advance i' s others))).
      { destruct h; simpl; destruct (advance i' s others); reflexivity. }
      rewrite E.
      destruct (IH i') as [H | (front & a & rest & back & Hp & H)];
        rewrite H; simpl.
      * left. reflexivity.
      * right. exists (h :: front), a, rest, back.
        split; [rewrite Hp|]; reflexivity.
Qed.

Lemma perform_silent (a : action) (s : State) :
  writesAnswer a = false -> answer (perform a s) = answer s.
Proof. destruct a; simpl; intros H; first [reflexivity | discriminate H]. Qed.

Lemma perform_not_processed (a : action) (s : State) :
  keepsProcessed a = true -> processedData (perform a s) = false ->
  processedData s = false.
Proof.
  intros Ha H. destruct (processedData s) eqn:Hs; [|reflexivity].
  rewrite (perform_keeps a s Ha Hs) in H. discriminate H.
Qed.

Lemma processUrls_silent (s : State) :
  forallb (fun a => negb (writesAnswer a)) (processUrls s) = true.
Proof. unfold processUrls. destruct (negb _); reflexivity. Qed.

Lemma searchArticles_silent (s : State) :
  processedData s = false ->
  forallb (fun a => negb (writesAnswer a)) (searchArticles s) = true.
Proof.
  intros H. unfold searchArticles. rewrite H.
  destruct (negb _); reflexivity.
Qed.

Lemma dispatch_quiet (c : config) (e : event) :
  quiet c -> quiet (dispatch c e).
Proof.
  intros [Hk Hq]. split; [exact (proj1 (dispatch_keeps c e Hk))|].
  destruct c as [s pending]. simpl in Hk, Hq.
  destruct e; simpl.
  - exact Hq.
  - exact Hq.
  - intros Hs. destruct (Hq Hs) as [Ha Hp]. split; [exact Ha|].
    unfold pendingSilent in *. rewrite forallb_app, Hp. simpl.
    rewrite processUrls_silent. reflexivity.
  - intros Hs. destruct (Hq Hs) as [Ha Hp]. split; [exact Ha|].
    unfold pendingSilent in *. rewrite forallb_app, Hp. simpl.
    rewrite (searchArticles_silent s Hs). reflexivity.
  - destruct (advance_cases i s pending)
      as [H | (front & a & rest & back & Hp & H)]; rewrite H; simpl.
    + exact Hq.
    + subst pending. unfold pendingKeep, pendingSilent in *.
      rewrite forallb_app in Hk. simpl in Hk.
      apply andb_true_iff in Hk. destruct Hk as [_ Hk].
      apply andb_true_iff in Hk. destruct Hk as [Hk _].
      apply andb_true_iff in Hk. destruct Hk as [Hka _].
      intros Hs. apply (perform_not_processed a s Hka) in Hs.
      destruct (Hq Hs) as [Ha Hsil].
      rewrite forallb_app in Hsil. simpl in Hsil.
      apply andb_true_iff in Hsil. destruct Hsil as [Hf Hsil].
      apply andb_true_iff in Hsil. destruct Hsil as [Hsil Hb].
      apply andb_true_iff in Hsil. destruct Hsil as [Hwa Hrest].
      apply negb_true_iff in Hwa.
      rewrite (perform_silent a s Hwa). split; [exact Ha|].
      rewrite forallb_app, Hf. simpl. rewrite Hrest, Hb. reflexivity.
Qed.

(** However the component got there, a state in which nothing has been
    processed shows no answer. *)
Lemma not_processed_no_answer (evs : list event) :
  processedData (fst (runEvents evs (initial, []))) = false ->
  answer (fst (runEvents evs (initial, []))) = [].
Proof.
  assert (H : forall c, quiet c -> quiet (runEvents evs c)).
  { induction evs as [|e evs IH]; intros c Hc; [exact Hc|].
    simpl. apply IH. apply dispatch_quiet. exact Hc. }
  intros Hs. apply (H (initial, [])); [|exact Hs].
  split; [reflexivity|]. intros _. split; reflexivity.
Qed.

(** C9. Start the component and let anything happen: typing, clicks on
    either button, handlers advancing in any interleaving.  If the processed
    flag is true at some point, it is true at every later point. *)
Theorem C9_processed_flag_monotone (before after : list event) :
  processedData (fst (runEvents before (initial, []))) = true ->
  processedData (fst (runEvents after (runEvents before (initial, []))))
  = true.
Proof.
  intros H.
  destruct (runEvents_keeps before (initial, []) eq_refl) as [Hp _].
  exact (proj2 (runEvents_keeps after _ Hp) H).
Qed.

Lemma C9_processed_flag_monotone_witness :
  processedData (fst (runEvents Sample.processing (initial, []))) = true
  /\ processedData
       (fst (runEvents Sample.afterwards
                       (runEvents Sample.processing (initial, [])))) = true.
Proof.
  split; [reflexivity|].
  apply (C9_processed_flag_monotone Sample.processing Sample.afterwards).
  reflexivity.
Defined.

End Processed.

(** * Further properties of the handlers *)

(** ** Lines and sources *)

Section Lines.

Lemma split_app_sep (sep : N) (a b : jsstring) :
  split sep (a ++ sep :: b) = split sep a ++ split sep b.
Proof.
  induction a as [|c t IH]; simpl.
  - rewrite N.eqb_refl. reflexivity.
  - destruct (c =? sep); [rewrite IH; reflexivity|].
    rewrite IH. destruct (split sep t) as [|piece pieces] eqn:E.
    + exfalso. exact (split_not_nil _ _ E).
    + reflexivity.
Qed.

Lemma split_no_sep (sep : N) (s piece : jsstring) :
  In piece (split sep s) -> ~ In sep piece.
Proof.
  revert piece. induction s as [|c t IH]; simpl; intros piece H.
  - destruct H as [<- | []]. intros [].
  - destruct (c =? sep) eqn:Hc.
    + destruct H as [<- | H]; [intros [] | exact (IH piece H)].
    + apply N.eqb_neq in Hc.
      destruct (split sep t) as [|first pieces] eqn:E.
      { exfalso. exact (split_not_nil _ _ E). }
      destruct H as [<- | H].
      * intros [Hin | Hin]; [congruence|].
        exact (IH first (or_introl eq_refl) Hin).
      * exact (IH piece (or_intror H)).
Qed.

Lemma length_split (sep : N) (s : jsstring) :
  length (split sep s) = S (count_occ N.eq_dec s sep).
Proof.
  induction s as [|c t IH]; simpl; [reflexivity|].
  destruct (N.eq_dec c sep) as [E | E].
  - apply N.eqb_eq in E. rewrite E. simpl. rewrite IH. reflexivity.
  - apply N.eqb_neq in E. rewrite E.
    destruct (split sep t) as [|piece pieces] eqn:Hsp.
    + exfalso. exact (split_not_nil _ _ Hsp).
    + simpl in *. exact IH.
Qed.

Lemma filter_nil_iff {A} (p : A -> bool) (l : list A) :
  filter p l = [] <-> forallb (fun x => negb (p x)) l = true.
Proof.
  induction l as [|x l IH]; simpl; [tauto|].
  destruct (p x); simpl; [|exact IH].
  split; discriminate.
Qed.

Lemma urlList_nil_iff (text : jsstring) :
  urlList text = [] <-> truthy (trim text) = false.
Proof.
  unfold urlList. rewrite filter_nil_iff, lines_blank_iff.
  rewrite <- trim_nil_iff. symmetry. apply truthy_false_iff.
Qed.

Lemma nonBlank_has_content (u : jsstring) :
  nonBlank u = true -> exists c, In c u /\ isTrimmed c = false.
Proof.
  intros H. induction u as [|c t IH].
  - discriminate H.
  - destruct (isTrimmed c) eqn:Hc.
    + destruct IH as [d [Hin Hd]].
      * destruct (nonBlank t) eqn:Ht; [reflexivity|].
        apply nonBlank_false_iff in Ht.
        assert (Hall : forallb isTrimmed (c :: t) = true)
          by (simpl; rewrite Hc, Ht; reflexivity).
        apply nonBlank_false_iff in Hall. congruence.
      * exists d. split; [right; exact Hin | exact Hd].
    + exists c. split; [left; reflexivity | exact Hc].
Qed.

(** X1. The guard of [processUrls] lets a text through exactly when the
    text has at least one non-blank line; so a run that gets past the guard
    always leaves at least one source. *)
Theorem X1_guard_matches_url_list (s : State) :
  (truthy (trim (urls s)) = true <-> mockSources (urls s) <> [])
  /\ (truthy (trim (urls s)) = true -> sources (run (processUrls s) s) <> [])
  /\ (truthy (trim (urls s)) = false -> mockSources (urls s) = []).
Proof.
  assert (Hnil : mockSources (urls s) = [] <-> truthy (trim (urls s)) = false).
  { rewrite <- urlList_nil_iff. unfold mockSources.
    destruct (urlList (urls s)); simpl; split; congruence. }
  assert (Hiff : truthy (trim (urls s)) = true <-> mockSources (urls s) <> []).
  { rewrite Hnil. destruct (truthy (trim (urls s))); split; congruence. }
  split; [exact Hiff|]. split.
  - intros H. rewrite (processUrls_accepted s H). simpl.
    apply Hiff. exact H.
  - apply Hnil.
Qed.

(** X2. After a successful [processUrls], every source has as url a line of
    the text taken as it is: the url is one of the pieces of the text cut at
    its line breaks, it holds no line break, it holds at least one code unit
    that is neither white space nor a line terminator, and the title of the
    source is the one computed from that url. *)
Theorem X2_source_urls_are_lines (s : State) (src : Source) :
  truthy (trim (urls s)) = true ->
  In src (sources (run (processUrls s) s)) ->
  In (url src) (split LF (urls s))
  /\ ~ In LF (url src)
  /\ (exists c, In c (url src) /\ isTrimmed c = false)
  /\ title src = mockTitle (url src).
Proof.
  intros H Hin. rewrite (processUrls_accepted s H) in Hin. simpl in Hin.
  unfold mockSources in Hin. apply in_map_iff in Hin.
  destruct Hin as [u [<- Hu]]. simpl.
  unfold urlList in Hu. apply filter_In in Hu. destruct Hu as [Hline Hnb].
  split; [exact Hline|].
  split; [exact (split_no_sep LF _ _ Hline)|].
  split; [exact (nonBlank_has_content u Hnb) | reflexivity].
Qed.

Lemma X2_source_urls_are_lines_witness :
  truthy (trim (urls (Sample.typed (lit " a" ++ [LF] ++ lit "b ")))) = true
  /\ In {| url := lit " a"; title := lit " a" |}
        (sources (run (processUrls (Sample.typed (lit " a" ++ [LF] ++ lit "b ")))
                      (Sample.typed (lit " a" ++ [LF] ++ lit "b "))))
  /\ In (lit " a") (split LF (lit " a" ++ [LF] ++ lit "b "))
  /\ ~ In LF (lit " a").
Proof.
  split; [reflexivity|]. split; [left; reflexivity|].
  destruct (X2_source_urls_are_lines
              (Sample.typed (lit " a" ++ [LF] ++ lit "b "))
              {| url := lit " a"; title := lit " a" |}
              eq_refl (or_introl eq_refl)) as [Hline [Hlf _]].
  split; [exact Hline | exact Hlf].
Defined.

(** X3. A mock title is never the empty string and never holds a '/'. *)
Theorem X3_title_nonempty_no_slash (u : jsstring) :
  mockTitle u <> [] /\ ~ In SLASH (mockTitle u).
Proof.
  destruct (split_pieces SLASH u) as (front & seg & Hsp & _ & Hseg).
  unfold mockTitle. rewrite Hsp, pop_last. unfold or_default, or_else.
  destruct seg as [|c seg']; simpl.
  - split; [discriminate|]. vm_compute. intuition discriminate.
  - split; [discriminate | exact Hseg].
Qed.

(** X4. Processing two texts joined by a line break gives the sources of the
    first followed by the sources of the second. *)
Theorem X4_sources_of_joined_texts (a b : jsstring) :
  mockSources (a ++ LF :: b) = mockSources a ++ mockSources b.
Proof.
  unfold mockSources, urlList.
  rewrite split_app_sep, filter_app, map_app. reflexivity.
Qed.

Lemma split_one_piece (sep : N) (s : jsstring) :
  ~ In sep s -> split sep s = [s].
Proof.
  induction s as [|c t IH]; intros H; [reflexivity|].
  simpl. destruct (c =? sep) eqn:Hc.
  - apply N.eqb_eq in Hc. exfalso. apply H. left. exact Hc.
  - rewrite IH; [reflexivity|]. intros Hin. apply H. right. exact Hin.
Qed.

(** X14. A text of one non-blank line gives exactly one source, and its url
    is the whole line as typed: white space around the URL is not taken
    off. *)
Theorem X14_single_line_kept_as_typed (u : jsstring) :
  ~ In LF u -> nonBlank u = true ->
  mockSources u = [ {| url := u; title := mockTitle u |} ].
Proof.
  intros Hlf Hnb. unfold mockSources, urlList.
  rewrite (split_one_piece LF u Hlf). simpl. rewrite Hnb. reflexivity.
Qed.

Lemma X14_single_line_kept_as_typed_witness :
  ~ In LF (lit "  https://example.com/a b ")
  /\ nonBlank (lit "  https://example.com/a b ") = true
  /\ mockSources (lit "  https://example.com/a b ")
     = [ {| url := lit "  https://example.com/a b ";
            title := lit "a b " |} ].
Proof.
  assert (Hlf : ~ In LF (lit "  https://example.com/a b ")).
  { vm_compute. intuition discriminate. }
  split; [exact Hlf|]. split; [reflexivity|].
  rewrite (X14_single_line_kept_as_typed
             (lit "  https://example.com/a b ") Hlf eq_refl).
  reflexivity.
Defined.

(** X5. There are at most as many sources as lines: one more than the
    number of line breaks in the text. *)
Theorem X5_sources_bounded_by_lines (text : jsstring) :
  (length (mockSources text) <= S (count_occ N.eq_dec text LF))%nat.
Proof.
  unfold mockSources, urlList. rewrite length_map, <- length_split.
  apply filter_length_le.
Qed.

End Lines.

(** ** Handlers run twice, and what they leave alone *)

Section Composition.

Lemma searchArticles_blank (s : State) :
  truthy (trim (query s)) = false ->
  searchArticles s = [SetError (Some (lit "Please enter a question"))].
Proof. intros H. unfold searchArticles. rewrite H. reflexivity. Qed.

Lemma searchArticles_not_ready (s : State) :
  truthy (trim (query s)) = true -> processedData s = false ->
  searchArticles s = [SetError (Some (lit "Please process URLs first"))].
Proof. intros Hq Hp. unfold searchArticles. rewrite Hq, Hp. reflexivity. Qed.

(** X6. A blank question is turned down before anything else is looked at:
    whether or not URLs have been processed, [searchArticles] only sets the
    error 'Please enter a question', writes no answer and leaves an answer
    that is already there as it is. *)
Theorem X6_blank_question_rejected (s : State) :
  truthy (trim (query s)) = false ->
  run (searchArticles s) s
  = perform (SetError (Some (lit "Please enter a question"))) s
  /\ answerWrites (searchArticles s) s = []
  /\ answer (run (searchArticles s) s) = answer s.
Proof.
  intros H. rewrite (searchArticles_blank s H).
  repeat split; reflexivity.
Qed.

Lemma X6_blank_question_rejected_witness :
  truthy (trim (query (setQuery (lit "   ")
                         (session Sample.article1 Sample.question)))) = false
  /\ error (run (searchArticles
                   (setQuery (lit "   ")
                      (session Sample.article1 Sample.question)))
                (setQuery (lit "   ")
                   (session Sample.article1 Sample.question)))
     = Some (lit "Please enter a question")
  /\ error (run (searchArticles (setQuery (lit "   ") initial))
                (setQuery (lit "   ") initial))
     = Some (lit "Please enter a question").
Proof.
  split; [reflexivity|]. split.
  - rewrite (proj1 (X6_blank_question_rejected
                      (setQuery (lit "   ")
                         (session Sample.article1 Sample.question))
                      eq_refl)).
    reflexivity.
  - rewrite (proj1 (X6_blank_question_rejected
                      (setQuery (lit "   ") initial) eq_refl)).
    reflexivity.
Defined.

(** X7. Clicking "Process URLs" a second time on the same text changes
    nothing: the state after one complete run is left as it is by another
    one, whether the text was accepted or turned down. *)
Theorem X7_processUrls_idempotent (s : State) :
  run (processUrls (run (processUrls s) s)) (run (processUrls s) s)
  = run (processUrls s) s.
Proof.
  destruct (truthy (trim (urls s))) eqn:H.
  - rewrite (processUrls_accepted s H).
    rewrite processUrls_accepted; [|exact H].
    destruct s; reflexivity.
  - rewrite (processUrls_rejected s H). simpl.
    rewrite processUrls_rejected; [|exact H].
    destruct s; reflexivity.
Qed.

(** X8. Clicking "Search" a second time on the same question changes
    nothing either, in each of the three branches of [searchArticles]. *)
Theorem X8_searchArticles_idempotent (s : State) :
  run (searchArticles (run (searchArticles s) s)) (run (searchArticles s) s)
  = run (searchArticles s) s.
Proof.
  destruct (truthy (trim (query s))) eqn:Hq.
  - destruct (processedData s) eqn:Hp.
    + rewrite (run_searchArticles_ready s (conj Hq Hp)).
      rewrite run_searchArticles_ready; [|split; assumption].
      destruct s; reflexivity.
    + rewrite (searchArticles_not_ready s Hq Hp). simpl.
      rewrite searchArticles_not_ready; [|exact Hq|exact Hp].
      destruct s; reflexivity.
  - rewrite (searchArticles_blank s Hq). simpl.
    rewrite searchArticles_blank; [|exact Hq].
    destruct s; reflexivity.
Qed.

(** X9. What the handlers never write.  [processUrls] leaves the URL text,
    the question, the answer and [isSearching] as they are; [searchArticles]
    leaves the URL text, the question, the sources, the processed flag and
    [isProcessing] as they are. *)
Theorem X9_handlers_leave_alone (s : State) :
  (urls (run (processUrls s) s) = urls s
   /\ query (run (processUrls s) s) = query s
   /\ answer (run (processUrls s) s) = answer s
   /\ isSearching (run (processUrls s) s) = isSearching s)
  /\ (urls (run (searchArticles s) s) = urls s
      /\ query (run (searchArticles s) s) = query s
      /\ sources (run (searchArticles s) s) = sources s
      /\ processedData (run (searchArticles s) s) = processedData s
      /\ isProcessing (run (searchArticles s) s) = isProcessing s).
Proof.
  split.
  - destruct (truthy (trim (urls s))) eqn:H.
    + rewrite (processUrls_accepted s H). repeat split; reflexivity.
    + rewrite (processUrls_rejected s H). repeat split; reflexivity.
  - destruct (truthy (trim (query s))) eqn:Hq.
    + destruct (processedData s) eqn:Hp.
      * rewrite (run_searchArticles_ready s (conj Hq Hp)).
        repeat split; try reflexivity. exact Hp.
      * rewrite (searchArticles_not_ready s Hq Hp).
        repeat split; try reflexivity. exact Hp.
    + rewrite (searchArticles_blank s Hq). repeat split; reflexivity.
Qed.

(** X10. Processing a new text does not clear the answer: when an answer is
    on the page and a non-blank text is processed, the answer stays and the
    sources listed under it become the non-blank lines of the new text,
    with no question asked in between. *)
Theorem X10_old_answer_new_sources (s : State) :
  truthy (trim (urls s)) = true -> truthy (answer s) = true ->
  answer (run (processUrls s) s) = answer s
  /\ displayedSources (run (processUrls s) s) = urlList (urls s).
Proof.
  intros H Ha. rewrite (processUrls_accepted s H).
  unfold displayedSources. simpl. rewrite Ha.
  split; [reflexivity | apply url_mockSources].
Qed.

Lemma X10_old_answer_new_sources_witness :
  truthy (trim (urls Sample.resubmitted)) = true
  /\ truthy (answer Sample.resubmitted) = true
  /\ displayedSources Sample.resubmitted = [Sample.article1]
  /\ displayedSources (run (processUrls Sample.resubmitted) Sample.resubmitted)
     = [Sample.article2].
Proof.
  split; [reflexivity|]. split; [reflexivity|]. split; [reflexivity|].
  rewrite (proj2 (X10_old_answer_new_sources Sample.resubmitted
                    eq_refl eq_refl)).
  reflexivity.
Defined.

End Composition.

(** ** The busy flags *)

Section Busy.

Variable get : State -> bool.
Variable sets : action -> option bool.

Hypothesis get_perform : forall a s,
  get (perform a s) = match sets a with Some v => v | None => get s end.
Hypothesis get_setUrls : forall v s, get (setUrls v s) = get s.
Hypothesis get_setQuery : forall v s, get (setQuery v s) = get s.
Hypothesis closes_processUrls : forall s, closes sets (processUrls s) = true.
Hypothesis closes_searchArticles :
  forall s, closes sets (searchArticles s) = true.

Lemma lowered_start (s : State) (pending : list (list action))
      (h : list action) :
  closes sets h = true -> lowered get sets (s, pending) ->
  lowered get sets (s, pending ++ [h]).
Proof.
  unfold lowered. cbn [fst snd]. intros Hh [Hc Hg]. split.
  - rewrite forallb_app, Hc. simpl. rewrite Hh. reflexivity.
  - intros H. rewrite existsb_app, (Hg H). reflexivity.
Qed.

Lemma lowered_advance (s : State) (front back : list (list action))
      (a : action) (rest : list action) :
  lowered get sets (s, front ++ (a :: rest) :: back) ->
  lowered get sets (perform a s, front ++ rest :: back).
Proof.
  unfold lowered. cbn [fst snd]. intros [Hc Hg].
  rewrite forallb_app in Hc. simpl in Hc.
  apply andb_true_iff in Hc. destruct Hc as [Hf Hc].
  apply andb_true_iff in Hc. destruct Hc as [Hc Hb].
  apply andb_true_iff in Hc. destruct Hc as [Ha Hrest].
  split.
  - rewrite forallb_app, Hf. simpl. rewrite Hrest, Hb. reflexivity.
  - rewrite get_perform. rewrite existsb_app in *. simpl in *.
    unfold clears in Hg at 2.
    destruct (sets a) as [[|]|] eqn:Hs.
    + intros _. rewrite Ha. rewrite orb_true_r. reflexivity.
    + discriminate.
    + exact Hg.
Qed.

Lemma lowered_dispatch (c : config) (e : event) :
  lowered get sets c -> lowered get sets (dispatch c e).
Proof.
  destruct c as [s pending]. intros H. destruct e; simpl.
  - unfold lowered in *. cbn [fst snd] in *. rewrite get_setUrls. exact H.
  - unfold lowered in *. cbn [fst snd] in *. rewrite get_setQuery. exact H.
  - apply lowered_start; [apply closes_processUrls | exact H].
  - apply lowered_start; [apply closes_searchArticles | exact H].
  - destruct (advance_cases i s pending)
      as [E | (front & a & rest & back & Hp & E)]; rewrite E.
    + exact H.
    + subst pending. apply lowered_advance. exact H.
Qed.

Lemma lowered_runEvents (evs : list event) (c : config) :
  lowered get sets c -> lowered get sets (runEvents evs c).
Proof.
  revert c. induction evs as [|e evs IH]; intros c H; [exact H|].
  simpl. apply IH. apply lowered_dispatch. exact H.
Qed.

Lemma finished_nothing_left (pending : list (list action)) :
  finished pending = true ->
  existsb (existsb (clears sets)) pending = false.
Proof.
  induction pending as [|h others IH]; simpl; [reflexivity|].
  destruct h; simpl; [exact IH | discriminate].
Qed.

Lemma lowered_when_finished (evs : list event) :
  get initial = false ->
  finished (snd (runEvents evs (initial, []))) = true ->
  get (fst (runEvents evs (initial, []))) = false.
Proof.
  intros Hi Hfin.
  assert (H : lowered get sets (runEvents evs (initial, []))).
  { apply lowered_runEvents. unfold lowered. cbn [fst snd].
    split; [reflexivity|]. rewrite Hi. discriminate. }
  destruct H as [_ Hg].
  destruct (get (fst (runEvents evs (initial, [])))); [|reflexivity].
  rewrite (finished_nothing_left _ Hfin) in Hg.
  symmetry. apply Hg. reflexivity.
Qed.

End Busy.

(** X11. The busy flags do not get stuck.  Start the component and let
    typing, clicks and started handlers follow each other in any order:
    whenever every started handler has come to its end, [isProcessing] and
    [isSearching] are both false, so neither button still shows its
    spinner. *)
Theorem X11_busy_flags_lowered (evs : list event) :
  finished (snd (runEvents evs (initial, []))) = true ->
  isProcessing (fst (runEvents evs (initial, []))) = false
  /\ isSearching (fst (runEvents evs (initial, []))) = false.
Proof.
  intros Hfin. split.
  - apply (lowered_when_finished isProcessing setsProcessing); try assumption;
      try reflexivity.
    + intros a s. destruct a; reflexivity.
    + intros s. unfold processUrls. destruct (negb _); reflexivity.
    + intros s. unfold searchArticles.
      destruct (negb _); [reflexivity|]. destruct (negb _); reflexivity.
  - apply (lowered_when_finished isSearching setsSearching); try assumption;
      try reflexivity.
    + intros a s. destruct a; reflexivity.
    + intros s. unfold processUrls. destruct (negb _); reflexivity.
    + intros s. unfold searchArticles.
      destruct (negb _); [reflexivity|]. destruct (negb _); reflexivity.
Qed.

Lemma X11_busy_flags_lowered_witness :
  finished (snd (runEvents More.overlapping (initial, []))) = true
  /\ isProcessing (fst (runEvents More.overlapping (initial, []))) = false
  /\ isSearching (fst (runEvents More.overlapping (initial, []))) = false.
Proof.
  split; [vm_compute; reflexivity|].
  apply (X11_busy_flags_lowered More.overlapping).
  vm_compute. reflexivity.
Defined.

(** ** The component behind its inputs and buttons *)

Section Page.

Lemma runEvents_app (evs1 evs2 : list event) (c : config) :
  runEvents (evs1 ++ evs2) c = runEvents evs2 (runEvents evs1 c).
Proof. unfold runEvents. apply fold_left_app. Qed.

Lemma advance_last (s : State) (pending : list (list action))
      (a : action) (rest : list action) :
  advance (length pending) s (pending ++ [a :: rest])
  = (perform a s, pending ++ [rest]).
Proof.
  induction pending as [|h others IH]; [reflexivity|].
  simpl length. simpl app.
  assert (E : forall l, advance (S (length others)) s (h :: l)
                        = (fst (advance (length others) s l),
                           h :: snd (advance (length others) s l))).
  { intros l. destruct h; simpl; destruct (advance _ s l); reflexivity. }
  rewrite E, IH. reflexivity.
Qed.

(** Starting a handler is clicking and then letting the new handler perform
    the actions it has before its first [await]. *)
Lemma start_as_advances (h : list action) (s : State)
      (pending : list (list action)) :
  runEvents (repeat (Advance (length pending)) (syncLength h))
            (s, pending ++ [h])
  = (fst (startHandler h s), pending ++ [snd (startHandler h s)]).
Proof.
  revert s. induction h as [|a rest IH]; intros s; [reflexivity|].
  destruct a; try reflexivity;
    (simpl syncLength; simpl repeat; simpl startHandler;
     unfold runEvents; simpl fold_left;
     rewrite advance_last; apply IH).
Qed.

Lemma uiDispatch_expand (c : config) (e : event) :
  uiDispatch c e = runEvents (expand c e) c.
Proof.
  destruct c as [s pending]. unfold uiDispatch, expand.
  destruct (enabled s e); [|reflexivity].
  destruct e; try reflexivity.
  - change (runEvents (ClickProcess :: ?l) (s, pending))
      with (runEvents l (s, pending ++ [processUrls s])).
    rewrite start_as_advances.
    destruct (startHandler (processUrls s) s); reflexivity.
  - change (runEvents (ClickSearch :: ?l) (s, pending))
      with (runEvents l (s, pending ++ [searchArticles s])).
    rewrite start_as_advances.
    destruct (startHandler (searchArticles s) s); reflexivity.
Qed.

(** Whatever the page can do, the free transition system can do. *)
Lemma runUi_as_runEvents (evs : list event) (c : config) :
  runUi evs c = runEvents (expandAll evs c) c.
Proof.
  revert c. induction evs as [|e evs IH]; intros c; [reflexivity|].
  simpl expandAll. rewrite runEvents_app, <- uiDispatch_expand.
  apply IH.
Qed.

(** What holds when a handler is started, for a property [P] of the state
    that the actions picked by [Q] keep. *)
Lemma startHandler_keeps (P : State -> Prop) (Q : action -> bool)
      (h : list action) (s : State) :
  (forall a st, Q a = true -> P st -> P (perform a st)) ->
  forallb Q h = true -> P s ->
  P (fst (startHandler h s)) /\ forallb Q (snd (startHandler h s)) = true.
Proof.
  intros HPQ. revert s. induction h as [|a rest IH]; intros s Hh Hs.
  - split; [exact Hs | reflexivity].
  - simpl in Hh. apply andb_true_iff in Hh. destruct Hh as [Ha Hrest].
    destruct a; cbn [startHandler];
      try (apply IH; [exact Hrest | apply HPQ; assumption]).
    split; [exact Hs|]. simpl. rewrite Ha. exact Hrest.
Qed.

End Page.

(** ** The readiness guard behind the disabled button *)

Section Guarded.

Lemma raisesNotReady_other (m : jsstring) :
  m <> notReady -> raisesNotReady (SetError (Some m)) = false.
Proof.
  intros H. simpl. destruct (list_eq_dec N.eq_dec m notReady); congruence.
Qed.

Lemma perform_notReady (a : action) (s : State) :
  negb (raisesNotReady a) = true ->
  error s <> Some notReady -> error (perform a s) <> Some notReady.
Proof.
  intros Ha Hs. destruct a; simpl; try exact Hs.
  destruct v as [m|]; [|discriminate].
  simpl in Ha. destruct (list_eq_dec N.eq_dec m notReady); [discriminate Ha|].
  congruence.
Qed.

Lemma stream_notReady (parts : list jsstring) :
  forallb (fun a => negb (raisesNotReady a)) (stream parts) = true.
Proof. induction parts as [|p parts IH]; [reflexivity | exact IH]. Qed.

Lemma processUrls_notReady (s : State) :
  forallb (fun a => negb (raisesNotReady a)) (processUrls s) = true.
Proof.
  unfold processUrls. destruct (negb _); [|reflexivity].
  cbn [forallb]. rewrite raisesNotReady_other; [reflexivity|].
  intros E. vm_compute in E. discriminate E.
Qed.

(** Only the readiness branch of [searchArticles] raises the message. *)
Lemma searchArticles_notReady (s : State) :
  processedData s = true ->
  forallb (fun a => negb (raisesNotReady a)) (searchArticles s) = true.
Proof.
  intros Hp. unfold searchArticles. rewrite Hp.
  destruct (negb (truthy _)); cbn [negb].
  - cbn [forallb]. rewrite raisesNotReady_other; [reflexivity|].
    intros E. vm_compute in E. discriminate E.
  - rewrite !forallb_app, stream_notReady. reflexivity.
Qed.

Lemma neverNotReady_start (s : State) (pending : list (list action))
      (h : list action) :
  forallb (fun a => negb (raisesNotReady a)) h = true ->
  neverNotReady (s, pending) ->
  neverNotReady (fst (startHandler h s), pending ++ [snd (startHandler h s)]).
Proof.
  unfold neverNotReady. cbn [fst snd]. intros Hh [He Hp].
  destruct (startHandler_keeps (fun st => error st <> Some notReady)
              (fun a => negb (raisesNotReady a)) h s
              perform_notReady Hh He) as [H1 H2].
  split; [exact H1|].
  rewrite forallb_app, Hp. simpl. rewrite H2. reflexivity.
Qed.

Lemma neverNotReady_uiDispatch (c : config) (e : event) :
  neverNotReady c -> neverNotReady (uiDispatch c e).
Proof.
  destruct c as [s pending]. intros H. unfold uiDispatch.
  destruct (enabled s e) eqn:Hen; [|exact H].
  destruct e.
  - exact H.
  - exact H.
  - pose proof (neverNotReady_start s pending (processUrls s)
                  (processUrls_notReady s) H) as H'.
    destruct (startHandler (processUrls s) s). exact H'.
  - assert (Hp : processedData s = true).
    { simpl in Hen. unfold searchDisabled in Hen.
      destruct (processedData s); [reflexivity|].
      rewrite orb_true_r in Hen. discriminate Hen. }
    pose proof (neverNotReady_start s pending (searchArticles s)
                  (searchArticles_notReady s Hp) H) as H'.
    destruct (startHandler (searchArticles s) s). exact H'.
  - simpl.
    destruct (advance_cases i s pending)
      as [E | (front & a & rest & back & Hpd & E)]; rewrite E; [exact H|].
    subst pending. unfold neverNotReady in *. cbn [fst snd] in *.
    destruct H as [He Hp].
    rewrite forallb_app in Hp. simpl in Hp.
    apply andb_true_iff in Hp. destruct Hp as [Hf Hp].
    apply andb_true_iff in Hp. destruct Hp as [Hh Hb].
    apply andb_true_iff in Hh. destruct Hh as [Ha Hrest].
    split; [exact (perform_notReady a s Ha He)|].
    rewrite forallb_app, Hf. simpl. rewrite Hrest, Hb. reflexivity.
Qed.

(** X12. On the page the readiness guard of [searchArticles] never fires:
    the "Search" button is disabled until URLs have been processed, so
    whatever the user types and clicks and however the started handlers
    interleave, the error is never 'Please process URLs first'. *)
Theorem X12_not_ready_never_shown (evs : list event) :
  error (fst (runUi evs (initial, [])))
  <> Some (lit "Please process URLs first").
Proof.
  assert (H : forall c, neverNotReady c -> neverNotReady (runUi evs c)).
  { induction evs as [|e evs IH]; intros c Hc; [exact Hc|].
    simpl. apply IH. apply neverNotReady_uiDispatch. exact Hc. }
  apply (H (initial, [])). split; [discriminate | reflexivity].
Qed.

End Guarded.

(** ** The answer while it is streamed *)

Section Streaming.

Lemma perform_searchFree (a : action) (s : State) :
  searchFree a = true ->
  answer (perform a s) = answer s
  /\ isSearching (perform a s) = isSearching s.
Proof. destruct a; simpl; intros H; try discriminate H; split; reflexivity. Qed.

Lemma stream_not_free (rest : list jsstring) :
  forallb searchFree (stream rest ++ [SetIsSearching false]) = false.
Proof. rewrite forallb_app. simpl. apply andb_false_r. Qed.

Lemma processUrls_searchFree (s : State) :
  forallb searchFree (processUrls s) = true.
Proof. unfold processUrls. destruct (negb _); reflexivity. Qed.

Lemma streaming_app (p1 p2 : list (list action)) :
  streaming (p1 ++ p2) = streaming p1 ++ streaming p2.
Proof. apply filter_app. Qed.

Lemma streaming_free (h : list action) (pending : list (list action)) :
  forallb searchFree h = true -> streaming (h :: pending) = streaming pending.
Proof. intros H. unfold streaming. simpl. rewrite H. reflexivity. Qed.

Lemma streaming_busy (h : list action) (pending : list (list action)) :
  forallb searchFree h = false ->
  streaming (h :: pending) = h :: streaming pending.
Proof. intros H. unfold streaming. simpl. rewrite H. reflexivity. Qed.

Lemma app_cons_singleton {A} (l1 l2 : list A) (x y : A) :
  l1 ++ x :: l2 = [y] -> l1 = [] /\ x = y /\ l2 = [].
Proof.
  destruct l1 as [|z l1]; simpl; intros H.
  - injection H as -> ->. repeat split.
  - injection H as _ H. destruct l1; discriminate H.
Qed.

(** The invariant only looks at the answer, at [isSearching] and at the
    handlers that touch them. *)
Lemma wholeFragments_same (s s' : State) (pending pending' : list (list action)) :
  answer s' = answer s -> isSearching s' = isSearching s ->
  streaming pending' = streaming pending ->
  wholeFragments (s, pending) -> wholeFragments (s', pending').
Proof.
  unfold wholeFragments. cbn [fst snd]. intros -> -> ->. tauto.
Qed.

Lemma wholeFragments_start_free (s : State) (pending : list (list action))
      (h : list action) :
  forallb searchFree h = true ->
  wholeFragments (s, pending) ->
  wholeFragments (fst (startHandler h s), pending ++ [snd (startHandler h s)]).
Proof.
  intros Hh H.
  destruct (startHandler_keeps
              (fun st => answer st = answer s
                         /\ isSearching st = isSearching s)
              searchFree h s) as [[Ha Hi] Hrest].
  - intros a st Hq [E1 E2].
    destruct (perform_searchFree a st Hq) as [F1 F2]. split; congruence.
  - exact Hh.
  - split; reflexivity.
  - apply (wholeFragments_same s _ pending); try assumption.
    rewrite streaming_app, (streaming_free _ [] Hrest). apply app_nil_r.
Qed.

Lemma start_search_ready (s : State) :
  ready s ->
  startHandler (searchArticles s) s
  = (perform (SetAnswer [])
       (perform (SetError None) (perform (SetIsSearching true) s)),
     stream mockAnswers ++ [SetIsSearching false]).
Proof. intros H. rewrite (searchArticles_ready s H). reflexivity. Qed.

Lemma wholeFragments_advance (s : State) (front back : list (list action))
      (a : action) (rest : list action) :
  wholeFragments (s, front ++ (a :: rest) :: back) ->
  wholeFragments (perform a s, front ++ rest :: back).
Proof.
  intros H.
  destruct (forallb searchFree (a :: rest)) eqn:Hfree.
  - (* a handler that has nothing to do with the answer *)
    pose proof Hfree as Hall. simpl in Hall.
    apply andb_true_iff in Hall. destruct Hall as [Ha Hrest].
    destruct (perform_searchFree a s Ha) as [E1 E2].
    apply (wholeFragments_same s _ (front ++ (a :: rest) :: back));
      try assumption.
    rewrite !streaming_app, (streaming_free _ _ Hrest),
      (streaming_free _ _ Hfree). reflexivity.
  - (* the handler of the running search *)
    unfold wholeFragments in H. cbn [fst snd] in H.
    rewrite streaming_app, (streaming_busy _ _ Hfree) in H.
    destruct H as [Hidle Hbusy].
    destruct (isSearching s) eqn:Hs.
    2:{ destruct (Hidle eq_refl) as [E _].
        exfalso. exact (app_cons_not_nil _ _ _ (eq_sym E)). }
    destruct (Hbusy eq_refl) as (h & Hst & Htail).
    apply app_cons_singleton in Hst. destruct Hst as (Hf & <- & Hb).
    destruct Htail as (done & rest0 & Hmock & Hans & Hshape).
    assert (Hnew : forall h', streaming (front ++ h' :: back)
                              = streaming [h']).
    { intros h'. rewrite streaming_app, Hf.
      change (h' :: back) with ([h'] ++ back).
      rewrite streaming_app, Hb. apply app_nil_r. }
    unfold wholeFragments. cbn [fst snd]. rewrite Hnew.
    destruct Hshape as [Hh | (part & rest' & Hrest0 & Hh)].
    + destruct rest0 as [|p r].
      * (* the [finally] block *)
        simpl in Hh. injection Hh as -> ->.
        change (isSearching (perform (SetIsSearching false) s)) with false.
        change (answer (perform (SetIsSearching false) s)) with (answer s).
        split.
        -- intros _. split; [reflexivity|]. right.
           rewrite Hans, Hmock, app_nil_r. reflexivity.
        -- discriminate.
      * (* the [await] of the next part *)
        change (stream (p :: r))
          with (Await 300 :: appendPart p :: stream r) in Hh.
        simpl in Hh. injection Hh as -> ->.
        change (perform (Await 300) s) with s. rewrite Hs. split.
        -- discriminate.
        -- intros _. exists (appendPart p :: stream r ++ [SetIsSearching false]).
           split; [reflexivity|].
           exists done, (p :: r). split; [exact Hmock|].
           split; [exact Hans|]. right. exists p, r. split; reflexivity.
    + (* the next part goes into the answer *)
      injection Hh as -> ->. subst rest0.
      assert (Hi : isSearching (perform (appendPart part) s) = true)
        by exact Hs.
      rewrite Hi. split; [discriminate|]. intros _.
      exists (stream rest' ++ [SetIsSearching false]). split.
      * apply (streaming_busy _ []). apply stream_not_free.
      * exists (done ++ [part]), rest'.
        split; [rewrite <- app_assoc; exact Hmock|].
        split; [|left; reflexivity].
        simpl. rewrite Hans. unfold concatAll.
        rewrite concat_app. simpl. rewrite app_nil_r. reflexivity.
Qed.

Lemma wholeFragments_uiDispatch (c : config) (e : event) :
  wholeFragments c -> wholeFragments (uiDispatch c e).
Proof.
  destruct c as [s pending]. intros H. unfold uiDispatch.
  destruct (enabled s e) eqn:Hen; [|exact H].
  destruct e.
  - exact H.
  - exact H.
  - pose proof (wholeFragments_start_free s pending (processUrls s)
                  (processUrls_searchFree s) H) as H'.
    destruct (startHandler (processUrls s) s). exact H'.
  - simpl in Hen. unfold searchDisabled in Hen.
    apply negb_true_iff in Hen. apply orb_false_iff in Hen.
    destruct Hen as [Hs Hp]. apply negb_false_iff in Hp.
    destruct (truthy (trim (query s))) eqn:Hq.
    + (* a search starts *)
      rewrite (start_search_ready s (conj Hq Hp)).
      destruct H as [Hidle _]. cbn [fst snd] in Hidle.
      destruct (Hidle Hs) as [Hnone _].
      unfold wholeFragments. cbn [fst snd]. simpl isSearching. simpl answer.
      split; [discriminate|]. intros _.
      exists (stream mockAnswers ++ [SetIsSearching false]). split.
      * rewrite streaming_app, Hnone.
        apply (streaming_busy _ []). apply stream_not_free.
      * exists [], mockAnswers. repeat split. left. reflexivity.
    + (* a blank question *)
      assert (Hfree : forallb searchFree (searchArticles s) = true)
        by (rewrite (searchArticles_blank s Hq); reflexivity).
      pose proof (wholeFragments_start_free s pending (searchArticles s)
                    Hfree H) as H'.
      destruct (startHandler (searchArticles s) s). exact H'.
  - simpl.
    destruct (advance_cases i s pending)
      as [E | (front & a & rest & back & Hpd & E)]; rewrite E; [exact H|].
    subst pending. apply wholeFragments_advance. exact H.
Qed.

(** X13. On the page the answer is never garbled.  Whatever the user types
    and clicks and however the started handlers interleave, the answer is
    at every moment the concatenation of the first fragments of
    [mockAnswers], whole ones and in their order; and when no search is
    running it is either empty or the complete text. *)
Theorem X13_answer_is_whole_fragments (evs : list event) :
  (exists done rest,
     mockAnswers = done ++ rest
     /\ answer (fst (runUi evs (initial, []))) = concatAll done)
  /\ (isSearching (fst (runUi evs (initial, []))) = false ->
      answer (fst (runUi evs (initial, []))) = []
      \/ answer (fst (runUi evs (initial, []))) = concatAll mockAnswers).
Proof.
  assert (H : forall c, wholeFragments c -> wholeFragments (runUi evs c)).
  { induction evs as [|e evs IH]; intros c Hc; [exact Hc|].
    simpl. apply IH. apply wholeFragments_uiDispatch. exact Hc. }
  assert (Hwf : wholeFragments (runUi evs (initial, []))).
  { apply H. split; cbn [fst snd]; [|discriminate].
    intros _. split; [reflexivity | left; reflexivity]. }
  destruct Hwf as [Hidle Hbusy]. split.
  - destruct (isSearching (fst (runUi evs (initial, [])))) eqn:Hs.
    + destruct (Hbusy eq_refl) as (h & _ & done & rest & Hmock & Hans & _).
      exists done, rest. split; assumption.
    + destruct (Hidle eq_refl) as [_ [E | E]].
      * exists [], mockAnswers. split; [reflexivity | exact E].
      * exists mockAnswers, []. split; [symmetry; apply app_nil_r | exact E].
  - intros Hs. exact (proj2 (Hidle Hs)).
Qed.

End Streaming.

(** ** The two transition systems on sample runs *)

Section Runs.

(** On the page the clicks on disabled buttons are lost; two fragments have
    arrived and the search is still running. *)
Example page_run :
  answer (fst (runUi More.clicking (initial, [])))
  = concatAll (firstn 2 mockAnswers)
  /\ isSearching (fst (runUi More.clicking (initial, []))) = true
  /\ map url (sources (fst (runUi More.clicking (initial, []))))
     = [Sample.article1; Sample.article2]
  /\ map (@length action) (snd (runUi More.clicking (initial, [])))
     = [0; 0; 16]%nat.
Proof. vm_compute. repeat split; reflexivity. Qed.

(** Two searches that overlap leave the second fragment alone in the
    answer; the page cannot get there. *)
Example free_run_garbles :
  answer (fst (runEvents More.garbling (initial, [])))
  = nth 1 mockAnswers [].
Proof. vm_compute. reflexivity. Qed.

End Runs.
